(** * A shallow embedding of [analyze_split] (src/interactive_report.py)

    The numeric columns of the data frame read from the CSV are float64
    columns; a missing value is NaN.  Numbers are therefore modelled as the
    kernel's primitive IEEE-754 binary64 floats, whose arithmetic is the
    arithmetic Python and numpy perform.  Comparisons of finite values are
    decided on the exact rational value each float denotes.

    Library code the function calls (pandas' [sort_values] and scipy's
    [ttest_ind]) is not part of the repository: it enters the development as
    section variables, with the documented contract of [sort_values] as
    hypotheses where a statement needs it. *)

From Stdlib Require Import ZArith QArith List String Bool Permutation Sorted Lia.
From Stdlib Require Import Floats Ascii.
Import ListNotations.

Set Warnings "-inexact-float".

(** ** Python exceptions and an error monad *)

Inductive PyError :=
| KeyError (col : string)
| OverflowError
| ValueError
| ZeroDivisionError.

Inductive Result (A : Type) :=
| Ok (a : A)
| Err (e : PyError).
Arguments Ok {A} a.
Arguments Err {A} e.

Definition bind {A B} (r : Result A) (f : A -> Result B) : Result B :=
  match r with
  | Ok a => f a
  | Err e => Err e
  end.

Notation "x <- r ;; f" := (bind r (fun x => f))
  (at level 61, r at next level, right associativity).

(** ** Floats *)

(** The exact value a float denotes. *)
Inductive fval :=
| VNaN
| VNegInf
| VFin (q : Q)
| VPosInf.

Definition fval_of (x : float) : fval :=
  match Prim2SF x with
  | S754_zero _ => VFin 0
  | S754_infinity s => if s then VNegInf else VPosInf
  | S754_nan => VNaN
  | S754_finite s m e =>
      let q := match e with
               | Z.neg d => Qmake (Z.pos m) (Pos.pow 2 d)
               | _ => inject_Z (Z.pos m * 2 ^ e)
               end in
      VFin (if s then Qopp q else q)
  end.

(** [pd.isna] on a float cell. *)
Definition isna (x : float) : bool :=
  match Prim2SF x with
  | S754_nan => true
  | _ => false
  end.

(** Python's [x >= y] on floats: false as soon as one side is NaN. *)
Definition py_ge (x y : float) : bool :=
  match fval_of x, fval_of y with
  | VNaN, _ | _, VNaN => false
  | VPosInf, _ => true
  | _, VNegInf => true
  | VNegInf, _ => false
  | _, VPosInf => false
  | VFin a, VFin b => Qle_bool b a
  end.

(** [float(n)] for a Python int [n] (exact below 2^53). *)
Definition float_of_nat (n : nat) : float :=
  of_uint63 (Uint63.of_Z (Z.of_nat n)).

(** Python's [int(x)] on a float: truncation toward zero; [OverflowError] on
    an infinity and [ValueError] on NaN. *)
Definition py_int (x : float) : Result Z :=
  match Prim2SF x with
  | S754_zero _ => Ok 0%Z
  | S754_infinity _ => Err OverflowError
  | S754_nan => Err ValueError
  | S754_finite s m e =>
      let t := Z.shiftl (Z.pos m) e in
      Ok (if s then Z.opp t else t)
  end.

(** ** Data frames *)

Definition Row := list (string * float).

Fixpoint row_get (r : Row) (c : string) : float :=
  match r with
  | [] => nan
  | (k, v) :: t => if String.eqb k c then v else row_get t c
  end.

Record DataFrame := mkFrame {
  columns : list string;
  rows : list Row
}.

Definition has_column (df : DataFrame) (c : string) : bool :=
  existsb (String.eqb c) (columns df).

(** [df[c]]: the column as a list of cells, or [KeyError]. *)
Definition get_column (df : DataFrame) (c : string) : Result (list float) :=
  if has_column df c then Ok (map (fun r => row_get r c) (rows df))
  else Err (KeyError c).

(** [df.iloc[:c]] and [df.iloc[c:]] for [c >= 0]. *)
Definition iloc_to (df : DataFrame) (c : Z) : DataFrame :=
  mkFrame (columns df) (firstn (Z.to_nat c) (rows df)).

Definition iloc_from (df : DataFrame) (c : Z) : DataFrame :=
  mkFrame (columns df) (skipn (Z.to_nat c) (rows df)).

Definition rank_column : string := "2021_GDP".
Definition reference_column : string := "2019_HE".
Definition comparison_column : string := "2021_HE".

(** The columns [analyze_split] reads. *)
Definition required_columns : list string :=
  [rank_column; reference_column; comparison_column].

(** pandas' order for [ascending=False]: non-missing values descending,
    missing values last ([na_position='last']).  [desc_before x y] holds when
    a row of rank [x] may precede a row of rank [y]. *)
Definition desc_before (x y : float) : bool :=
  if isna y then true else if isna x then false else py_ge x y.

(** ** The split (lines 23-33 of [analyze_split]) *)

Section Split.

(** pandas' [sort_values(by=..., ascending=False)] on the rows, by a key. *)
Variable sort_desc : (Row -> float) -> list Row -> list Row.

Definition sort_values (df : DataFrame) (by_ : string) : Result DataFrame :=
  if has_column df by_
  then Ok (mkFrame (columns df) (sort_desc (fun r => row_get r by_) (rows df)))
  else Err (KeyError by_).

(** The percentile arrives as a number; [percentile_threshold / 100] is
    its float quotient (for a Python int below 2^53 this is the same float). *)
Definition split_rows (data : DataFrame) (percentile_threshold : float)
  : Result (DataFrame * DataFrame) :=
  data_sorted <- sort_values data rank_column ;;
  let n := List.length (rows data_sorted) in
  cutoff_idx <- py_int (float_of_nat n * (percentile_threshold / 100)) ;;
  let cutoff_idx := Z.max 1 (Z.min cutoff_idx (Z.of_nat n - 1)) in
  let upper_group := iloc_to data_sorted cutoff_idx in
  let lower_group := iloc_from data_sorted cutoff_idx in
  Ok (upper_group, lower_group).

End Split.

(** A stable insertion sort realising [sort_values]' contract; used only to
    run the development on concrete frames. *)
Section InsertionSort.

Variable key : Row -> float.

Fixpoint insert_desc (a : Row) (l : list Row) : list Row :=
  match l with
  | [] => [a]
  | b :: t => if desc_before (key a) (key b) then a :: b :: t
              else b :: insert_desc a t
  end.

Fixpoint isort_desc (l : list Row) : list Row :=
  match l with
  | [] => []
  | a :: t => insert_desc a (isort_desc t)
  end.

End InsertionSort.

(** ** Descriptive statistics (lines 47-62), after pandas' [nanops]

    Reductions skip NaN.  Sums are left folds: numpy's pairwise summation
    adds fewer than eight terms in this order. *)

Local Open Scope float_scope.

Definition fsum (xs : list float) : float := fold_left add xs 0.

(** [values] with NaN replaced by [0] ([np.putmask(values, mask, 0)]). *)
Definition fill0 (xs : list float) : list float :=
  map (fun x => if isna x then 0 else x) xs.

Definition dropna (xs : list float) : list float :=
  filter (fun x => negb (isna x)) xs.

Definition nancount (xs : list float) : nat := List.length (dropna xs).

(** Python's [x < y] on floats. *)
Definition py_lt (x y : float) : bool := negb (isna x) && negb (isna y) && negb (py_ge x y).

(** [Series.sum()]: NaN skipped, the empty sum is [0.0]. *)
Definition nansum (xs : list float) : float := fsum (fill0 xs).

(** [Series.mean()] *)
Definition nanmean (xs : list float) : float :=
  let count := nancount xs in
  if Nat.eqb count 0 then nan else nansum xs / float_of_nat count.

(** [Series.var()], [ddof=1]. *)
Definition nanvar (xs : list float) : float :=
  let count := nancount xs in
  if Nat.leb count 1 then nan
  else
    let avg := nansum xs / float_of_nat count in
    let sqr := map (fun x => if isna x then 0 else (avg - x) * (avg - x)) xs in
    fsum sqr / float_of_nat (count - 1)%nat.

(** [Series.std()] *)
Definition nanstd (xs : list float) : float := sqrt (nanvar xs).

(** [_zero_out_fperr]: magnitudes below [1e-14] become [0]. *)
Definition zero_out_fperr (x : float) : float :=
  if py_lt (abs x) 1e-14 then 0 else x.

(** [Series.skew()]: the adjusted Fisher-Pearson coefficient; [m2 ** 1.5] is
    written [m2 * sqrt m2]. *)
Definition nanskew (xs : list float) : float :=
  let count := nancount xs in
  if Nat.ltb count 3 then nan
  else
    let c := float_of_nat count in
    let mean := nansum xs / c in
    let adjusted := map (fun x => if isna x then 0 else x - mean) xs in
    let m2 := zero_out_fperr (fsum (map (fun a => a * a) adjusted)) in
    let m3 := zero_out_fperr (fsum (map (fun a => a * a * a) adjusted)) in
    if (m2 =? 0)%float then 0
    else (c * sqrt (c - 1) / (c - 2)) * (m3 / (m2 * sqrt m2)).

(** [Series.kurtosis()]: the bias-corrected sample excess kurtosis. *)
Definition nankurt (xs : list float) : float :=
  let count := nancount xs in
  if Nat.ltb count 4 then nan
  else
    let c := float_of_nat count in
    let mean := nansum xs / c in
    let adjusted := map (fun x => if isna x then 0 else x - mean) xs in
    let m2 := fsum (map (fun a => a * a) adjusted) in
    let m4 := fsum (map (fun a => (a * a) * (a * a)) adjusted) in
    let adj := 3 * ((c - 1) * (c - 1)) / ((c - 2) * (c - 3)) in
    let numerator := zero_out_fperr (c * (c + 1) * (c - 1) * m4) in
    let denominator := zero_out_fperr ((c - 2) * (c - 3) * (m2 * m2)) in
    if (denominator =? 0)%float then 0 else numerator / denominator - adj.

(** Ascending insertion sort of NaN-free values, for the median. *)
Fixpoint insert_asc (a : float) (l : list float) : list float :=
  match l with
  | [] => [a]
  | b :: t => if py_ge b a then a :: b :: t else b :: insert_asc a t
  end.

Fixpoint sort_asc (l : list float) : list float :=
  match l with
  | [] => []
  | a :: t => insert_asc a (sort_asc t)
  end.

(** [Series.median()] *)
Definition nanmedian (xs : list float) : float :=
  let s := sort_asc (dropna xs) in
  let n := List.length s in
  if Nat.eqb n 0 then nan
  else if Nat.odd n then nth (Nat.div n 2) s 0
  else (nth (Nat.div n 2 - 1)%nat s 0 + nth (Nat.div n 2) s 0) / 2.

(** [Series.min()] and [Series.max()] *)
Definition nanmin (xs : list float) : float :=
  match dropna xs with
  | [] => nan
  | x :: t => fold_left (fun m y => if py_lt y m then y else m) t x
  end.

Definition nanmax (xs : list float) : float :=
  match dropna xs with
  | [] => nan
  | x :: t => fold_left (fun m y => if py_lt m y then y else m) t x
  end.

Record DescriptiveStats := mkStats {
  Mean : float;
  Standard_Error : float;
  Median : float;
  Standard_Deviation : float;
  Sample_Variance : float;
  Kurtosis : float;
  Skewness : float;
  Range : float;
  Minimum : float;
  Maximum : float;
  Sum : float;
  Count : Z
}.

(** [group[year].std() / (len(group[year]) ** 0.5)]; [len(group[year])]
    counts every row of the group, missing cells included.  On an empty
    column pandas' [std()] is the Python float [nan], and Python's float
    division by [0 ** 0.5 = 0.0] raises [ZeroDivisionError]; otherwise the
    divisor is positive.  [x ** 0.5] is written [sqrt x]. *)
Definition standard_error (col : list float) : Result float :=
  if Nat.eqb (List.length col) 0 then Err ZeroDivisionError
  else Ok (nanstd col / sqrt (float_of_nat (List.length col))).

(** The statistics dictionary of one column [group[year]] (lines 49-62),
    entries in the order Python evaluates them. *)
Definition describe (col : list float) : Result DescriptiveStats :=
  se <- standard_error col ;;
  Ok {| Mean := nanmean col;
     Standard_Error := se;
     Median := nanmedian col;
     Standard_Deviation := nanstd col;
     Sample_Variance := nanvar col;
     Kurtosis := nankurt col;
     Skewness := nanskew col;
     Range := nanmax col - nanmin col;
     Minimum := nanmin col;
     Maximum := nanmax col;
     Sum := nansum col;
     Count := Z.of_nat (nancount col) |}.

Local Close Scope float_scope.

(** ** The analysis of both groups (lines 35-72) *)

Record GroupResult := mkResult {
  data : DataFrame;
  pvalue : float;
  statistic : float;
  significant : bool;
  stats : list (string * DescriptiveStats)
}.

Section Analyze.

Variable sort_desc : (Row -> float) -> list Row -> list Row.

(** scipy's [ttest_ind(a, b, nan_policy='omit')]: the statistic and the
    two-tailed p-value of the two-sample test. *)
Variable ttest_ind : list float -> list float -> float * float.

Definition describe_year (group : DataFrame) (year : string)
  : Result (string * DescriptiveStats) :=
  col <- get_column group year ;;
  s <- describe col ;;
  Ok (year, s).

Definition analyze_group (group : DataFrame) : Result GroupResult :=
  a <- get_column group comparison_column ;;
  b <- get_column group reference_column ;;
  let t_test_result := ttest_ind a b in
  let one_tailed_pvalue := (snd t_test_result / 2)%float in
  s2019 <- describe_year group reference_column ;;
  s2021 <- describe_year group comparison_column ;;
  Ok {| data := group;
        pvalue := one_tailed_pvalue;
        statistic := fst t_test_result;
        significant := (one_tailed_pvalue <? 0.05)%float && (0 <? fst t_test_result)%float;
        stats := [s2019; s2021] |}.

(** The result for the upper group (["Top X%"]) and the lower group
    (["Bottom (100-X)%"]). *)
Definition analyze_split (data : DataFrame) (percentile_threshold : float)
  : Result (GroupResult * GroupResult) :=
  groups <- split_rows sort_desc data percentile_threshold ;;
  upper <- analyze_group (fst groups) ;;
  lower <- analyze_group (snd groups) ;;
  Ok (upper, lower).

End Analyze.

(** ** Concrete frames *)

(** A frame with one row per rank value; both value columns are filled. *)
Definition frame_of_ranks (gs : list float) : DataFrame :=
  mkFrame [rank_column; reference_column; comparison_column]
    (map (fun g => [(rank_column, g); (reference_column, 1%float);
                    (comparison_column, 2%float)]) gs).

(** The frame whose rank column is [0, 1, ..., n-1]. *)
Definition frame_of_size (n : nat) : DataFrame :=
  frame_of_ranks (map float_of_nat (seq 0 n)).

Definition split_sizes (r : Result (DataFrame * DataFrame)) : option (nat * nat) :=
  match r with
  | Ok (u, l) => Some (List.length (rows u), List.length (rows l))
  | Err _ => None
  end.

Definition rank_of (r : Row) : float := row_get r rank_column.

(** A stand-in for [ttest_ind] in runs whose outcome does not reach it. *)
Definition ttest_nan (a b : list float) : float * float := (nan, nan).

(** A stand-in for [gaussian_kde] in runs, with scipy's check that the
    dataset has more than one element ([ValueError] otherwise); its density
    is zero. *)
Definition kde_needs_two (dataset : list float) : Result (list float -> list float) :=
  match dataset with
  | [_] => Err ValueError
  | _ => Ok (map (fun _ => 0%float))
  end.

(** ** The results dictionary (lines 35-41 and 64-70) *)

(** [str(n)] for a Python int, digit by digit. *)
Fixpoint dec_aux (fuel : nat) (n : N) (acc : string) : string :=
  match fuel with
  | O => acc
  | S f =>
      let acc' := String (Ascii.ascii_of_N (48 + N.modulo n 10)) acc in
      if N.ltb n 10 then acc' else dec_aux f (N.div n 10) acc'
  end.

Definition py_str_Z (z : Z) : string :=
  match z with
  | Z.neg p => String.append "-" (dec_aux (S (Pos.size_nat p)) (N.pos p) "")
  | _ => dec_aux (S (N.size_nat (Z.to_N z))) (Z.to_N z) ""
  end.

(** [float(p)] for a Python int with [|p| < 2^53]; [p / 100] on such ints is
    [float(p) / 100.0]. *)
Definition float_of_Z (z : Z) : float :=
  match z with
  | Z.neg p => (- of_uint63 (Uint63.of_Z (Z.pos p)))%float
  | _ => of_uint63 (Uint63.of_Z z)
  end.

(** Python's [d[k] = v] on a dict kept in insertion order: an existing key
    keeps its place. *)
Fixpoint dict_set {V} (d : list (string * V)) (k : string) (v : V) : list (string * V) :=
  match d with
  | [] => [(k, v)]
  | (k', v') :: t => if String.eqb k' k then (k', v) :: t else (k', v') :: dict_set t k v
  end.

Fixpoint dict_get {V} (d : list (string * V)) (k : string) : option V :=
  match d with
  | [] => None
  | (k', v) :: t => if String.eqb k' k then Some v else dict_get t k
  end.

(** [f"Top {percentile_threshold}%"] and [f"Bottom {100-percentile_threshold}%"] *)
Definition group_name_top (p : Z) : string :=
  String.append "Top " (String.append (py_str_Z p) "%").

Definition group_name_bottom (p : Z) : string :=
  String.append "Bottom " (String.append (py_str_Z (100 - p)) "%").

(** [group_names = list(results.keys())], then [group_names[0]] and
    [group_names[1]] in [update_analysis]; [None] is its [IndexError]. *)
Definition update_analysis_groups {V} (results : list (string * V)) : option (string * string) :=
  match map fst results with
  | top :: bottom :: _ => Some (top, bottom)
  | _ => None
  end.

(** ** The figure of [create_plots] (lines 74-168) *)

Inductive TraceKind := Box | KDE | Histogram.

(** A trace added to the figure: its kind, [name], subplot [row] and [col],
    its values ([y] of a box, [x] of a histogram, the [x] grid of a density)
    and the density values ([y] of a density). *)
Record Trace := mkTrace {
  tkind : TraceKind;
  tname : string;
  trow : nat;
  tcol : nat;
  tvalues : list float;
  tdensity : list float
}.

Fixpoint mapM {A B} (f : A -> Result B) (l : list A) : Result (list B) :=
  match l with
  | [] => Ok []
  | a :: t => b <- f a ;; bs <- mapM f t ;; Ok (b :: bs)
  end.

(** [np.linspace(start, stop, num)] for [num >= 2]. *)
Definition linspace (start stop : float) (num : nat) : list float :=
  let div := float_of_nat (num - 1) in
  let delta := (stop - start)%float in
  let step := (delta / div)%float in
  let ys := map (fun i => let y := float_of_nat i in
                   if (step =? 0)%float then (y / div * delta + start)%float
                   else (y * step + start)%float) (seq 0 num) in
  firstn (num - 1) ys ++ [stop].

Definition years : list string := [reference_column; comparison_column].

Section Dashboard.

Variable sort_desc : (Row -> float) -> list Row -> list Row.
Variable ttest_ind : list float -> list float -> float * float.

(** scipy's [gaussian_kde(dataset)]: the density estimate, or the error it
    raises on a degenerate dataset. *)
Variable gaussian_kde : list float -> Result (list float -> list float).

(** [analyze_split(data, percentile_threshold)] for an int percentile: the
    dictionary it returns, keyed by the group names in loop order. *)
Definition analyze_split_dict (data : DataFrame) (percentile_threshold : Z)
  : Result (list (string * GroupResult)) :=
  r <- analyze_split sort_desc ttest_ind data (float_of_Z percentile_threshold) ;;
  let results := dict_set [] (group_name_top percentile_threshold) (fst r) in
  Ok (dict_set results (group_name_bottom percentile_threshold) (snd r)).

(** The box plot of [group[year].dropna()] (column 1). *)
Definition box_trace (row : nat) (group : DataFrame) (year : string) : Result Trace :=
  col <- get_column group year ;;
  Ok (mkTrace Box year row 1 (dropna col) []).

(** The density of [group[year].dropna()] on 1000 points between its
    minimum and maximum (column 2), skipped when there is no value. *)
Definition kde_trace (row : nat) (group : DataFrame) (year : string) : Result (list Trace) :=
  col <- get_column group year ;;
  let kde_data := dropna col in
  match kde_data with
  | [] => Ok []
  | _ :: _ =>
      let kde_x := linspace (nanmin kde_data) (nanmax kde_data) 1000 in
      kde <- gaussian_kde kde_data ;;
      Ok [mkTrace KDE year row 2 kde_x (kde kde_x)]
  end.

(** The histogram of [group[year].dropna()] (column 3). *)
Definition hist_trace (row : nat) (group : DataFrame) (year : string) : Result Trace :=
  col <- get_column group year ;;
  Ok (mkTrace Histogram year row 3 (dropna col) []).

Definition group_traces (row : nat) (group : DataFrame) : Result (list Trace) :=
  boxes <- mapM (box_trace row group) years ;;
  kdes <- mapM (kde_trace row group) years ;;
  hists <- mapM (hist_trace row group) years ;;
  Ok (boxes ++ List.concat kdes ++ hists).

(** [for i, (group_name, result) in enumerate(results.items())], row [i + 1]. *)
Fixpoint enumerate_traces (i : nat) (results : list (string * GroupResult)) : Result (list Trace) :=
  match results with
  | [] => Ok []
  | (_, r) :: t =>
      ts <- group_traces (S i) (data r) ;;
      rest <- enumerate_traces (S i) t ;;
      Ok (ts ++ rest)
  end.

(** The traces of the figure and the results [create_plots] returns. *)
Definition create_plots (data : DataFrame) (percentile : Z)
  : Result (list Trace * list (string * GroupResult)) :=
  results <- analyze_split_dict data percentile ;;
  traces <- enumerate_traces 0 results ;;
  Ok (traces, results).

End Dashboard.

(** The traces of the figure's row [row] for [group]: both box plots, the
    densities [kdes], both histograms, years in the order of [years]. *)
Definition row_layout (row : nat) (group : DataFrame) (kdes : list Trace) : list Trace :=
  map (fun y => mkTrace Box y row 1 (dropna (map (fun r => row_get r y) (rows group))) []) years
  ++ kdes ++
  map (fun y => mkTrace Histogram y row 3 (dropna (map (fun r => row_get r y) (rows group))) []) years.

(** * Properties *)

Section SplitFacts.

Variable sort_desc : (Row -> float) -> list Row -> list Row.
Hypothesis sort_perm : forall k l, Permutation (sort_desc k l) l.

Lemma split_rows_eq d p :
  split_rows sort_desc d p =
  if has_column d rank_column then
    let s := sort_desc rank_of (rows d) in
    match py_int (float_of_nat (List.length s) * (p / 100))%float with
    | Ok c =>
        let c' := Z.max 1 (Z.min c (Z.of_nat (List.length s) - 1)) in
        Ok (mkFrame (columns d) (firstn (Z.to_nat c') s),
            mkFrame (columns d) (skipn (Z.to_nat c') s))
    | Err e => Err e
    end
  else Err (KeyError rank_column).
Proof.
  unfold split_rows, sort_values, bind.
  destruct (has_column d rank_column); [|reflexivity]. simpl.
  destruct (py_int _); reflexivity.
Qed.

Lemma sort_length k l : List.length (sort_desc k l) = List.length l.
Proof. apply Permutation_length, sort_perm. Qed.

(** The groups are the two slices of the sorted rows at the clamped cutoff. *)
Lemma split_rows_ok d p c :
  has_column d rank_column = true ->
  py_int (float_of_nat (List.length (rows d)) * (p / 100))%float = Ok c ->
  let s := sort_desc rank_of (rows d) in
  let c' := Z.max 1 (Z.min c (Z.of_nat (List.length (rows d)) - 1)) in
  split_rows sort_desc d p =
  Ok (mkFrame (columns d) (firstn (Z.to_nat c') s),
      mkFrame (columns d) (skipn (Z.to_nat c') s)).
Proof.
  intros Hcol Hc. rewrite split_rows_eq, Hcol. cbv zeta.
  rewrite sort_length, Hc. reflexivity.
Qed.

(** C1 (amended): for a dataset of at least two rows with its rank column
    and a percentile whose [len * (percentile / 100)] is a finite float, the
    split returns two groups whose sizes add up to the dataset's size, each
    with at least one row. *)
Theorem split_sizes_partition d p c :
  (2 <= List.length (rows d))%nat ->
  has_column d rank_column = true ->
  py_int (float_of_nat (List.length (rows d)) * (p / 100))%float = Ok c ->
  exists upper lower,
    split_rows sort_desc d p = Ok (upper, lower) /\
    (List.length (rows upper) + List.length (rows lower) = List.length (rows d))%nat /\
    (1 <= List.length (rows upper))%nat /\ (1 <= List.length (rows lower))%nat.
Proof.
  intros Hn Hcol Hc.
  rewrite (split_rows_ok d p c Hcol Hc).
  do 2 eexists. split; [reflexivity|]. simpl.
  rewrite length_firstn, length_skipn, sort_length.
  set (n := List.length (rows d)) in *.
  set (c' := Z.max 1 (Z.min c (Z.of_nat n - 1))).
  assert (Hk : (1 <= Z.to_nat c' <= n - 1)%nat) by (subst c'; lia).
  lia.
Qed.

(** A dataset of fewer than two rows: every row (none or one) goes to the
    upper group and the lower group is empty. *)
Lemma split_small_dataset d p c :
  (List.length (rows d) < 2)%nat ->
  has_column d rank_column = true ->
  py_int (float_of_nat (List.length (rows d)) * (p / 100))%float = Ok c ->
  exists upper lower,
    split_rows sort_desc d p = Ok (upper, lower) /\
    List.length (rows upper) = List.length (rows d) /\
    rows lower = [].
Proof.
  intros Hn Hcol Hc.
  rewrite (split_rows_ok d p c Hcol Hc).
  do 2 eexists. split; [reflexivity|]. simpl.
  rewrite length_firstn, sort_length.
  set (n := List.length (rows d)) in *.
  assert (Hk : Z.to_nat (Z.max 1 (Z.min c (Z.of_nat n - 1))) = 1%nat) by lia.
  rewrite Hk. split; [lia|].
  apply length_zero_iff_nil. rewrite length_skipn, sort_length. lia.
Qed.

End SplitFacts.

(** ** The descending, missing-last order *)

Lemma isna_fval x : isna x = true <-> fval_of x = VNaN.
Proof.
  unfold isna, fval_of.
  destruct (Prim2SF x) as [s|s| |s m e]; try destruct s; try destruct e;
    split; intro H; try discriminate; reflexivity.
Qed.

Lemma isna_fval_false x : isna x = false -> fval_of x <> VNaN.
Proof. intros H E. apply isna_fval in E. congruence. Qed.

Lemma py_ge_trans x y z :
  py_ge x y = true -> py_ge y z = true -> py_ge x z = true.
Proof.
  unfold py_ge.
  destruct (fval_of x) as [| |a|], (fval_of y) as [| |b|], (fval_of z) as [| |c|];
    try discriminate; try reflexivity.
  rewrite !Qle_bool_iff. intros H1 H2. eapply Qle_trans; eassumption.
Qed.

Lemma py_ge_total x y :
  isna x = false -> isna y = false -> py_ge x y = false -> py_ge y x = true.
Proof.
  intros Hx Hy. apply isna_fval_false in Hx, Hy. unfold py_ge.
  destruct (fval_of x) as [| |a|], (fval_of y) as [| |b|];
    try congruence; try reflexivity.
  intro H. apply Qle_bool_iff.
  destruct (Qlt_le_dec a b) as [Hlt|Hle]; [now apply Qlt_le_weak|].
  apply Qle_bool_iff in Hle. congruence.
Qed.

Lemma desc_before_trans x y z :
  desc_before x y = true -> desc_before y z = true -> desc_before x z = true.
Proof.
  unfold desc_before.
  destruct (isna x), (isna y), (isna z); try discriminate; try reflexivity.
  apply py_ge_trans.
Qed.

Lemma desc_before_total x y :
  desc_before x y = false -> desc_before y x = true.
Proof.
  unfold desc_before.
  destruct (isna x) eqn:Hx, (isna y) eqn:Hy; try discriminate; try reflexivity.
  now apply py_ge_total.
Qed.

(** Rows placed before by the sort: an upper row against a lower row. *)
Lemma strongly_sorted_slices {A} (R : A -> A -> Prop) (l : list A) (k : nat) :
  StronglySorted R l ->
  forall x y, In x (firstn k l) -> In y (skipn k l) -> R x y.
Proof.
  revert k. induction l as [|a t IH]; intros k HS x y Hx Hy.
  - destruct k; contradiction.
  - destruct k as [|k]; [contradiction|].
    apply StronglySorted_inv in HS as [HS Ha].
    simpl in Hx, Hy. destruct Hx as [<-|Hx].
    + rewrite Forall_forall in Ha. apply Ha.
      rewrite <- (firstn_skipn k t). apply in_or_app. now right.
    + exact (IH k HS x y Hx Hy).
Qed.

(** ** The insertion sort meets the contract of [sort_values] *)

Section InsertionSortFacts.

Variable key : Row -> float.
Let R := fun a b => desc_before (key a) (key b) = true.

Lemma insert_desc_perm a l : Permutation (insert_desc key a l) (a :: l).
Proof.
  induction l as [|b t IH]; simpl; [reflexivity|].
  destruct (desc_before (key a) (key b)); [reflexivity|].
  rewrite IH. apply perm_swap.
Qed.

Lemma isort_desc_perm l : Permutation (isort_desc key l) l.
Proof.
  induction l as [|a t IH]; simpl; [reflexivity|].
  rewrite insert_desc_perm. now apply perm_skip.
Qed.

Lemma insert_desc_hd b a l :
  R b a -> HdRel R b l -> HdRel R b (insert_desc key a l).
Proof.
  intros Hba Hl. destruct l as [|c t]; simpl.
  - now constructor.
  - destruct (desc_before (key a) (key c)); constructor; [exact Hba|].
    now inversion Hl.
Qed.

Lemma insert_desc_sorted a l : Sorted R l -> Sorted R (insert_desc key a l).
Proof.
  induction l as [|b t IH]; intro HS; simpl.
  - repeat constructor.
  - apply Sorted_inv in HS as [HS Hb].
    destruct (desc_before (key a) (key b)) eqn:E.
    + constructor; [constructor; assumption|]. constructor. exact E.
    + constructor; [now apply IH|].
      apply insert_desc_hd; [|exact Hb].
      unfold R. now apply desc_before_total.
Qed.

Lemma isort_desc_sorted l : Sorted R (isort_desc key l).
Proof.
  induction l as [|a t IH]; simpl; [constructor|].
  now apply insert_desc_sorted.
Qed.

End InsertionSortFacts.

(** ** The split against the sort's contract *)

Section SplitOrder.

Variable sort_desc : (Row -> float) -> list Row -> list Row.
Hypothesis sort_perm : forall k l, Permutation (sort_desc k l) l.
Hypothesis sort_sorted :
  forall k l, Sorted (fun a b => desc_before (k a) (k b) = true) (sort_desc k l).

(** C2 (code bug): the rows are sorted by the rank column descending
    (missing ranks last), the cutoff is clamped to [1, len - 1], and the
    groups are the first [cutoff] sorted rows and the rest; on a 10-row
    dataset percentile 0 gives an upper group of 1 row and percentile 100 a
    lower group of 1 row.  But the cutoff is [int(len * (percentile / 100))]
    in binary64, which divides first: on 90 rows at percentile 70 the
    product is [62.99999999999999] and the upper group has 62 rows, where
    [floor(90 * 70 / 100)] is 63. *)
Theorem split_rows_spec d p :
  has_column d rank_column = true ->
  (forall c,
     py_int (float_of_nat (List.length (rows d)) * (p / 100))%float = Ok c ->
     let s := sort_desc rank_of (rows d) in
     let cutoff := Z.max 1 (Z.min c (Z.of_nat (List.length (rows d)) - 1)) in
     Permutation s (rows d) /\
     Sorted (fun a b => desc_before (rank_of a) (rank_of b) = true) s /\
     split_rows sort_desc d p =
       Ok (mkFrame (columns d) (firstn (Z.to_nat cutoff) s),
           mkFrame (columns d) (skipn (Z.to_nat cutoff) s))) /\
  (List.length (rows d) = 10%nat ->
     split_sizes (split_rows sort_desc d 0%float) = Some (1%nat, 9%nat) /\
     split_sizes (split_rows sort_desc d 100%float) = Some (9%nat, 1%nat)) /\
  (List.length (rows d) = 90%nat ->
     split_sizes (split_rows sort_desc d 70%float) = Some (62%nat, 28%nat) /\
     (Z.of_nat (List.length (rows d)) * 70 / 100 = 63)%Z).
Proof.
  intro Hcol. split; [|split].
  - intros c Hc. cbv zeta.
    split; [apply sort_perm|]. split; [apply sort_sorted|].
    exact (split_rows_ok sort_desc sort_perm d p c Hcol Hc).
  - intro H10.
    assert (E0 : py_int (float_of_nat (List.length (rows d)) * (0 / 100))%float = Ok 0%Z)
      by (rewrite H10; vm_compute; reflexivity).
    assert (E1 : py_int (float_of_nat (List.length (rows d)) * (100 / 100))%float = Ok 10%Z)
      by (rewrite H10; vm_compute; reflexivity).
    rewrite (split_rows_ok sort_desc sort_perm d _ _ Hcol E0).
    rewrite (split_rows_ok sort_desc sort_perm d _ _ Hcol E1).
    unfold split_sizes; simpl.
    rewrite !length_firstn, !length_skipn, !(Permutation_length (sort_perm _ _)), H10.
    split; reflexivity.
  - intro H90.
    assert (E : py_int (float_of_nat (List.length (rows d)) * (70 / 100))%float = Ok 62%Z)
      by (rewrite H90; vm_compute; reflexivity).
    rewrite (split_rows_ok sort_desc sort_perm d _ _ Hcol E).
    unfold split_sizes; simpl.
    rewrite length_firstn, length_skipn, (Permutation_length (sort_perm _ _)), H90.
    split; reflexivity.
Qed.

(** C10 (amended): every row of the upper group comes before every row of
    the lower group in the sort's order: when the lower row has a rank, the
    upper row has one too and it is at least as large. *)
Theorem split_rank_dominance d p upper lower :
  split_rows sort_desc d p = Ok (upper, lower) ->
  forall x y, In x (rows upper) -> In y (rows lower) ->
    isna (rank_of y) = false ->
    isna (rank_of x) = false /\ py_ge (rank_of x) (rank_of y) = true.
Proof.
  intros H x y Hx Hy Hyna.
  rewrite split_rows_eq in H.
  destruct (has_column d rank_column); [|discriminate]. cbv zeta in H.
  destruct (py_int _) as [c|e]; [|discriminate].
  injection H as <- <-. simpl in Hx, Hy.
  assert (HS : StronglySorted (fun a b => desc_before (rank_of a) (rank_of b) = true)
                 (sort_desc rank_of (rows d))).
  { apply Sorted_StronglySorted; [|apply sort_sorted].
    intros a b e. apply desc_before_trans. }
  pose proof (strongly_sorted_slices _ _ _ HS x y Hx Hy) as Hxy.
  unfold desc_before in Hxy. rewrite Hyna in Hxy.
  destruct (isna (rank_of x)); [discriminate|]. now split.
Qed.

End SplitOrder.

(** ** Missing columns *)

Lemma has_column_mk cols r c : has_column (mkFrame cols r) c = existsb (String.eqb c) cols.
Proof. reflexivity. Qed.

Section MissingColumns.

Variable sort_desc : (Row -> float) -> list Row -> list Row.
Hypothesis sort_perm : forall k l, Permutation (sort_desc k l) l.
Variable ttest_ind : list float -> list float -> float * float.

Lemma analyze_group_no_comparison g :
  has_column g comparison_column = false ->
  analyze_group ttest_ind g = Err (KeyError comparison_column).
Proof. intro H. unfold analyze_group, get_column. now rewrite H. Qed.

Lemma analyze_group_no_reference g :
  has_column g comparison_column = true ->
  has_column g reference_column = false ->
  analyze_group ttest_ind g = Err (KeyError reference_column).
Proof. intros H1 H2. unfold analyze_group, get_column. now rewrite H1, H2. Qed.

(** C6 (amended): a dataset missing a required column makes the request
    fail, with pandas' [KeyError] naming a missing required column; the only
    other outcome is the error of [int()] on a non-finite cutoff, raised
    first when the rank column is present. *)
Theorem analyze_split_missing_column d p m :
  In m required_columns -> has_column d m = false ->
  exists e, analyze_split sort_desc ttest_ind d p = Err e /\
    ((exists m', e = KeyError m' /\ In m' required_columns /\ has_column d m' = false) \/
     (has_column d rank_column = true /\
      py_int (float_of_nat (List.length (rows d)) * (p / 100))%float = Err e)).
Proof.
  intros Hm Hmiss. unfold analyze_split. rewrite split_rows_eq.
  destruct (has_column d rank_column) eqn:Hr.
  2:{ eexists; split; [reflexivity|]. left. exists rank_column.
      split; [reflexivity|]. split; [now left|exact Hr]. }
  cbv zeta. rewrite (sort_length sort_desc sort_perm).
  destruct (py_int _) as [c|e] eqn:Hc.
  2:{ exists e. split; [reflexivity|]. right. now split. }
  simpl bind.
  destruct (has_column d comparison_column) eqn:Hcomp.
  - destruct (has_column d reference_column) eqn:Href.
    + exfalso. destruct Hm as [<-|[<-|[<-|[]]]]; congruence.
    + rewrite analyze_group_no_reference by (rewrite has_column_mk; assumption).
      eexists; split; [reflexivity|]. left. exists reference_column.
      split; [reflexivity|]. split; [right; now left|exact Href].
  - rewrite analyze_group_no_comparison by (rewrite has_column_mk; assumption).
    eexists; split; [reflexivity|]. left. exists comparison_column.
    split; [reflexivity|]. split; [right; right; now left|exact Hcomp].
Qed.

End MissingColumns.

(** ** Statistics of a column without values *)

Lemma isna_div_l x y : isna x = true -> isna (x / y)%float = true.
Proof.
  unfold isna. rewrite div_spec.
  destruct (Prim2SF x); try discriminate. reflexivity.
Qed.




(** A column with a row has its statistics; only the Standard Error can
    raise. *)
Lemma describe_ok col :
  col <> [] ->
  describe col =
    Ok {| Mean := nanmean col;
          Standard_Error := (nanstd col / sqrt (float_of_nat (List.length col)))%float;
          Median := nanmedian col;
          Standard_Deviation := nanstd col;
          Sample_Variance := nanvar col;
          Kurtosis := nankurt col;
          Skewness := nanskew col;
          Range := (nanmax col - nanmin col)%float;
          Minimum := nanmin col;
          Maximum := nanmax col;
          Sum := nansum col;
          Count := Z.of_nat (nancount col) |}.
Proof.
  intro Hne. unfold describe, standard_error.
  destruct (Nat.eqb_spec (List.length col) 0) as [E|_].
  - apply length_zero_iff_nil in E. contradiction.
  - reflexivity.
Qed.

Lemma describe_nil : describe [] = Err ZeroDivisionError.
Proof. reflexivity. Qed.


Section AllMissing.

Variable ttest_ind : list float -> list float -> float * float.

Lemma get_column_nonempty g c :
  rows g <> [] -> map (fun r => row_get r c) (rows g) <> [].
Proof. intros Hne E. apply map_eq_nil in E. contradiction. Qed.

(** A group with both value columns and a row is analysed. *)
Lemma analyze_group_ok g :
  has_column g comparison_column = true -> has_column g reference_column = true ->
  rows g <> [] ->
  exists r, analyze_group ttest_ind g = Ok r /\ data r = g.
Proof.
  intros H1 H2 Hne. unfold analyze_group, describe_year, get_column.
  rewrite H1, H2. cbn [bind].
  rewrite !describe_ok by (apply get_column_nonempty; exact Hne).
  cbn [bind]. eexists. split; reflexivity.
Qed.

(** An empty group with both value columns raises [ZeroDivisionError] at
    its 2019_HE Standard Error. *)
Lemma analyze_group_empty g :
  has_column g comparison_column = true -> has_column g reference_column = true ->
  rows g = [] ->
  analyze_group ttest_ind g = Err ZeroDivisionError.
Proof.
  intros H1 H2 Hnil. unfold analyze_group, describe_year, get_column.
  rewrite H1, H2, Hnil. reflexivity.
Qed.


End AllMissing.

(** ** Datasets of fewer than two rows *)

Section SmallDatasets.

Variable sort_desc : (Row -> float) -> list Row -> list Row.
Hypothesis sort_perm : forall k l, Permutation (sort_desc k l) l.
Variable ttest_ind : list float -> list float -> float * float.

(** C5 (code bug): nothing guards a dataset of fewer than two rows.  With
    the three columns and a finite [len * (percentile / 100)], the split
    returns every row (none or one) in the upper group and an empty lower
    group, and the analysis of an empty group then raises
    [ZeroDivisionError] (NaN standard deviation over [0 ** 0.5]): the
    request crashes instead of failing with an [InsufficientDataError]. *)
Theorem analyze_split_small_dataset d p c :
  (List.length (rows d) < 2)%nat ->
  (forall m, In m required_columns -> has_column d m = true) ->
  py_int (float_of_nat (List.length (rows d)) * (p / 100))%float = Ok c ->
  (exists upper lower,
     split_rows sort_desc d p = Ok (upper, lower) /\
     List.length (rows upper) = List.length (rows d) /\ rows lower = []) /\
  analyze_split sort_desc ttest_ind d p = Err ZeroDivisionError.
Proof.
  intros Hn Hm Hc.
  assert (Hr : has_column d rank_column = true) by (apply Hm; now left).
  assert (H1 : has_column d reference_column = true) by (apply Hm; right; now left).
  assert (H2 : has_column d comparison_column = true) by (apply Hm; right; right; now left).
  split; [exact (split_small_dataset sort_desc sort_perm d p c Hn Hr Hc)|].
  unfold analyze_split. rewrite (split_rows_ok sort_desc sort_perm d p c Hr Hc).
  cbv zeta. cbn [bind fst snd].
  assert (Hk : Z.to_nat (Z.max 1 (Z.min c (Z.of_nat (List.length (rows d)) - 1))) = 1%nat)
    by lia.
  rewrite Hk.
  pose proof (sort_length sort_desc sort_perm rank_of (rows d)) as Hl.
  destruct (sort_desc rank_of (rows d)) as [|x [|y t]].
  - cbn [firstn skipn].
    rewrite analyze_group_empty by first [exact H1 | exact H2 | reflexivity].
    reflexivity.
  - cbn [firstn skipn].
    destruct (analyze_group_ok ttest_ind (mkFrame (columns d) [x]) H2 H1 ltac:(discriminate))
      as (r & Er & _).
    rewrite Er. cbn [bind].
    rewrite analyze_group_empty by first [exact H1 | exact H2 | reflexivity].
    reflexivity.
  - simpl in Hl. lia.
Qed.

End SmallDatasets.

(** ** The standard error *)

(** C4: the standard error divides by the square root of the group's row
    count [len(group[year])], missing cells included: on the column
    [1, 2, 3, NaN] the standard deviation is 1 over 3 values and the reported
    standard error is [1 / sqrt 4 = 0.5], not [1 / sqrt 3]. *)
Theorem standard_error_counts_missing :
  exists s, describe [1; 2; 3; nan]%float = Ok s /\
  Standard_Deviation s = 1%float /\ Count s = 3%Z /\
  Standard_Error s = (Standard_Deviation s / sqrt (float_of_nat 4))%float /\
  Standard_Error s = 0.5%float /\
  Standard_Error s <> (Standard_Deviation s / sqrt (float_of_nat (Z.to_nat (Count s))))%float.
Proof.
  rewrite describe_ok by discriminate. eexists. split; [reflexivity|].
  cbn [Standard_Deviation Count Standard_Error].
  split; [vm_compute; reflexivity|].
  split; [vm_compute; reflexivity|].
  split; [vm_compute; reflexivity|].
  split; [vm_compute; reflexivity|].
  intro H. apply (f_equal Prim2SF) in H. vm_compute in H. discriminate.
Qed.

(** ** Runs on concrete frames *)

Lemma split_sizes_partition_witness :
  (2 <= List.length (rows (frame_of_size 4)))%nat /\
  has_column (frame_of_size 4) rank_column = true /\
  py_int (float_of_nat (List.length (rows (frame_of_size 4))) * (50 / 100))%float = Ok 2%Z /\
  exists upper lower,
    split_rows isort_desc (frame_of_size 4) 50%float = Ok (upper, lower) /\
    (List.length (rows upper) + List.length (rows lower) = 4)%nat /\
    (1 <= List.length (rows upper))%nat /\ (1 <= List.length (rows lower))%nat.
Proof.
  assert (H1 : (2 <= List.length (rows (frame_of_size 4)))%nat) by (simpl; lia).
  assert (H2 : has_column (frame_of_size 4) rank_column = true) by reflexivity.
  assert (H3 : py_int (float_of_nat (List.length (rows (frame_of_size 4))) * (50 / 100))%float
               = Ok 2%Z) by (vm_compute; reflexivity).
  split; [exact H1|]. split; [exact H2|]. split; [exact H3|].
  exact (split_sizes_partition isort_desc isort_desc_perm _ _ _ H1 H2 H3).
Defined.

(** C1: an infinite percentile makes [int()] raise. *)
Lemma split_infinite_percentile :
  split_rows isort_desc (frame_of_size 2) infinity = Err OverflowError.
Proof. vm_compute. reflexivity. Defined.

Lemma split_rows_spec_witness :
  has_column (frame_of_size 10) rank_column = true /\
  split_sizes (split_rows isort_desc (frame_of_size 10) 0%float) = Some (1%nat, 9%nat) /\
  split_sizes (split_rows isort_desc (frame_of_size 10) 100%float) = Some (9%nat, 1%nat) /\
  has_column (frame_of_size 90) rank_column = true /\
  split_sizes (split_rows isort_desc (frame_of_size 90) 70%float) = Some (62%nat, 28%nat) /\
  (Z.of_nat (List.length (rows (frame_of_size 90))) * 70 / 100 = 63)%Z.
Proof.
  assert (H : has_column (frame_of_size 10) rank_column = true) by reflexivity.
  assert (H' : has_column (frame_of_size 90) rank_column = true) by reflexivity.
  split; [exact H|].
  destruct (proj1 (proj2 (split_rows_spec isort_desc isort_desc_perm isort_desc_sorted
                            (frame_of_size 10) 0%float H)) eq_refl) as [A B].
  split; [exact A|]. split; [exact B|].
  split; [exact H'|].
  apply (proj2 (proj2 (split_rows_spec isort_desc isort_desc_perm isort_desc_sorted
                         (frame_of_size 90) 70%float H'))).
  reflexivity.
Defined.

Lemma analyze_split_small_dataset_witness :
  (List.length (rows (frame_of_size 1)) < 2)%nat /\
  (forall m, In m required_columns -> has_column (frame_of_size 1) m = true) /\
  py_int (float_of_nat (List.length (rows (frame_of_size 1))) * (50 / 100))%float = Ok 0%Z /\
  (exists upper lower,
     split_rows isort_desc (frame_of_size 1) 50%float = Ok (upper, lower) /\
     List.length (rows upper) = 1%nat /\ rows lower = []) /\
  analyze_split isort_desc ttest_nan (frame_of_size 1) 50%float = Err ZeroDivisionError.
Proof.
  assert (H1 : (List.length (rows (frame_of_size 1)) < 2)%nat) by (simpl; lia).
  assert (H2 : forall m, In m required_columns -> has_column (frame_of_size 1) m = true)
    by (intros m [<-|[<-|[<-|[]]]]; reflexivity).
  assert (H3 : py_int (float_of_nat (List.length (rows (frame_of_size 1))) * (50 / 100))%float
               = Ok 0%Z) by (vm_compute; reflexivity).
  split; [exact H1|]. split; [exact H2|]. split; [exact H3|].
  exact (analyze_split_small_dataset isort_desc isort_desc_perm ttest_nan _ _ _ H1 H2 H3).
Defined.

Lemma analyze_split_missing_column_witness :
  In reference_column required_columns /\
  has_column (mkFrame [rank_column; comparison_column] (rows (frame_of_size 4)))
    reference_column = false /\
  exists e,
    analyze_split isort_desc ttest_nan
      (mkFrame [rank_column; comparison_column] (rows (frame_of_size 4))) 50%float = Err e.
Proof.
  assert (H1 : In reference_column required_columns) by (right; left; reflexivity).
  assert (H2 : has_column (mkFrame [rank_column; comparison_column] (rows (frame_of_size 4)))
                 reference_column = false) by reflexivity.
  split; [exact H1|]. split; [exact H2|].
  destruct (analyze_split_missing_column isort_desc isort_desc_perm ttest_nan _ 50%float _ H1 H2)
    as [e [He _]].
  exists e. exact He.
Defined.

(** C6: the error is pandas' [KeyError], there is no [MissingColumnError]. *)
Lemma missing_column_is_key_error :
  analyze_split isort_desc ttest_nan
    (mkFrame [rank_column; comparison_column] (rows (frame_of_size 4))) 50%float
  = Err (KeyError "2019_HE").
Proof. vm_compute. reflexivity. Defined.



Lemma split_rank_dominance_witness :
  split_rows isort_desc (frame_of_ranks [3; 1; 2]%float) 50%float
    = Ok (frame_of_ranks [3%float], frame_of_ranks [2; 1]%float) /\
  forall x y, In x (rows (frame_of_ranks [3%float])) ->
    In y (rows (frame_of_ranks [2; 1]%float)) ->
    isna (rank_of y) = false ->
    isna (rank_of x) = false /\ py_ge (rank_of x) (rank_of y) = true.
Proof.
  assert (H : split_rows isort_desc (frame_of_ranks [3; 1; 2]%float) 50%float
                = Ok (frame_of_ranks [3%float], frame_of_ranks [2; 1]%float))
    by (vm_compute; reflexivity).
  split; [exact H|].
  exact (split_rank_dominance isort_desc isort_desc_sorted _ _ _ _ H).
Defined.

(** C10: a row whose rank is missing sorts last, and Python's [5 >= nan]
    is false. *)
Lemma split_missing_rank_lower :
  split_rows isort_desc (frame_of_ranks [5; nan]%float) 50%float
    = Ok (frame_of_ranks [5%float], frame_of_ranks [nan]) /\
  py_ge 5%float nan = false.
Proof. split; vm_compute; reflexivity. Defined.

(** * Further properties of the report *)

(** ** Extremes and median of a column *)

Lemma py_ge_refl x : isna x = false -> py_ge x x = true.
Proof.
  intro Hx. apply isna_fval_false in Hx. unfold py_ge.
  destruct (fval_of x) as [| |a|]; try congruence; try reflexivity.
  apply Qle_bool_iff, Qle_refl.
Qed.

Lemma py_lt_false x y :
  isna x = false -> isna y = false -> py_lt x y = false -> py_ge x y = true.
Proof.
  intros Hx Hy. unfold py_lt. rewrite Hx, Hy. simpl.
  destruct (py_ge x y); [reflexivity|discriminate].
Qed.

Lemma py_lt_true x y : py_lt x y = true -> py_ge y x = true.
Proof.
  unfold py_lt.
  destruct (isna x) eqn:Hx, (isna y) eqn:Hy, (py_ge x y) eqn:E; simpl; try discriminate.
  intros _. now apply py_ge_total.
Qed.

Lemma In_dropna x col : In x (dropna col) -> isna x = false.
Proof.
  unfold dropna. rewrite filter_In. intros [_ H].
  destruct (isna x); [discriminate|reflexivity].
Qed.

Lemma fold_min_spec t m :
  isna m = false -> (forall y, In y t -> isna y = false) ->
  In (fold_left (fun m y => if py_lt y m then y else m) t m) (m :: t) /\
  forall z, In z (m :: t) ->
    py_ge z (fold_left (fun m y => if py_lt y m then y else m) t m) = true.
Proof.
  revert m. induction t as [|y t IH]; intros m Hm Ht; cbn [fold_left].
  - split; [now left|]. intros z [<-|[]]. now apply py_ge_refl.
  - assert (Hy : isna y = false) by (apply Ht; now left).
    assert (Ht' : forall z, In z t -> isna z = false) by (intros; apply Ht; now right).
    destruct (py_lt y m) eqn:E.
    + destruct (IH y Hy Ht') as [Hin Hle]. split; [now right|].
      intros z [<-|Hz]; [|now apply Hle].
      apply py_ge_trans with y; [now apply py_lt_true|apply Hle; now left].
    + destruct (IH m Hm Ht') as [Hin Hle]. split.
      * destruct Hin as [<-|Hin]; [now left|right; now right].
      * intros z [<-|[<-|Hz]]; [apply Hle; now left| |apply Hle; now right].
        apply py_ge_trans with m; [now apply py_lt_false|apply Hle; now left].
Qed.

Lemma fold_max_spec t m :
  isna m = false -> (forall y, In y t -> isna y = false) ->
  In (fold_left (fun m y => if py_lt m y then y else m) t m) (m :: t) /\
  forall z, In z (m :: t) ->
    py_ge (fold_left (fun m y => if py_lt m y then y else m) t m) z = true.
Proof.
  revert m. induction t as [|y t IH]; intros m Hm Ht; cbn [fold_left].
  - split; [now left|]. intros z [<-|[]]. now apply py_ge_refl.
  - assert (Hy : isna y = false) by (apply Ht; now left).
    assert (Ht' : forall z, In z t -> isna z = false) by (intros; apply Ht; now right).
    destruct (py_lt m y) eqn:E.
    + destruct (IH y Hy Ht') as [Hin Hle]. split; [now right|].
      intros z [<-|Hz]; [|now apply Hle].
      apply py_ge_trans with y; [apply Hle; now left|now apply py_lt_true].
    + destruct (IH m Hm Ht') as [Hin Hle]. split.
      * destruct Hin as [<-|Hin]; [now left|right; now right].
      * intros z [<-|[<-|Hz]]; [apply Hle; now left| |apply Hle; now right].
        apply py_ge_trans with m; [apply Hle; now left|now apply py_lt_false].
Qed.

Lemma nanmin_spec col :
  dropna col <> [] ->
  In (nanmin col) (dropna col) /\
  forall z, In z (dropna col) -> py_ge z (nanmin col) = true.
Proof.
  unfold nanmin. intro Hne.
  assert (Hall : forall y, In y (dropna col) -> isna y = false)
    by (intros y Hy; now apply In_dropna with col).
  destruct (dropna col) as [|x t]; [congruence|].
  apply fold_min_spec; [apply Hall; now left|intros; apply Hall; now right].
Qed.

Lemma nanmax_spec col :
  dropna col <> [] ->
  In (nanmax col) (dropna col) /\
  forall z, In z (dropna col) -> py_ge (nanmax col) z = true.
Proof.
  unfold nanmax. intro Hne.
  assert (Hall : forall y, In y (dropna col) -> isna y = false)
    by (intros y Hy; now apply In_dropna with col).
  destruct (dropna col) as [|x t]; [congruence|].
  apply fold_max_spec; [apply Hall; now left|intros; apply Hall; now right].
Qed.

Lemma insert_asc_perm a l : Permutation (insert_asc a l) (a :: l).
Proof.
  induction l as [|b t IH]; simpl; [reflexivity|].
  destruct (py_ge b a); [reflexivity|].
  rewrite IH. apply perm_swap.
Qed.

Lemma sort_asc_perm l : Permutation (sort_asc l) l.
Proof.
  induction l as [|a t IH]; simpl; [reflexivity|].
  rewrite insert_asc_perm. now apply perm_skip.
Qed.

Lemma isna_sqrt x : isna x = true -> isna (sqrt x) = true.
Proof.
  unfold isna. rewrite sqrt_spec.
  destruct (Prim2SF x); try discriminate. reflexivity.
Qed.

Lemma dropna_nonempty col : dropna col <> [] -> col <> [].
Proof. intros H E. subst col. apply H. reflexivity. Qed.

(** X5: a column with a value is described without error; its Minimum and
    Maximum are among its values, and every value lies between them. *)
Theorem describe_min_max col :
  dropna col <> [] ->
  exists s, describe col = Ok s /\
  In (Minimum s) (dropna col) /\
  In (Maximum s) (dropna col) /\
  forall x, In x (dropna col) ->
    py_ge x (Minimum s) = true /\ py_ge (Maximum s) x = true.
Proof.
  intro Hne. rewrite (describe_ok col (dropna_nonempty col Hne)).
  eexists. split; [reflexivity|]. cbn [Minimum Maximum].
  destruct (nanmin_spec col Hne) as [Hmin Hlo].
  destruct (nanmax_spec col Hne) as [Hmax Hhi].
  split; [exact Hmin|]. split; [exact Hmax|].
  intros x Hx. split; [now apply Hlo|now apply Hhi].
Qed.

(** X6: a column with an odd number of values is described without error;
    its Median is one of its values, between its Minimum and its Maximum. *)
Theorem describe_median_odd col :
  Nat.odd (nancount col) = true ->
  exists s, describe col = Ok s /\
  In (Median s) (dropna col) /\
  py_ge (Median s) (Minimum s) = true /\
  py_ge (Maximum s) (Median s) = true.
Proof.
  intro Hodd.
  assert (Hin : In (nanmedian col) (dropna col)).
  { unfold nanmedian. cbv zeta.
    rewrite (Permutation_length (sort_asc_perm _)).
    unfold nancount in Hodd.
    destruct (Nat.eqb_spec (List.length (dropna col)) 0) as [E|Hn].
    - rewrite E in Hodd. discriminate.
    - rewrite Hodd.
      apply (Permutation_in _ (sort_asc_perm (dropna col))).
      apply nth_In. rewrite (Permutation_length (sort_asc_perm _)).
      apply Nat.div_lt; lia. }
  assert (Hne : dropna col <> []) by (intro E; rewrite E in Hin; contradiction).
  rewrite (describe_ok col (dropna_nonempty col Hne)).
  eexists. split; [reflexivity|]. cbn [Median Minimum Maximum].
  split; [exact Hin|]. split.
  - apply (proj2 (nanmin_spec col Hne)). exact Hin.
  - apply (proj2 (nanmax_spec col Hne)). exact Hin.
Qed.

(** X7: a column with at least one entry is described without error, and
    the statistics that need more values than the column has are NaN:
    Sample Variance, Standard Deviation and Standard Error below two values,
    Skewness below three, Kurtosis below four. *)
Theorem describe_few_values col :
  col <> [] ->
  exists s, describe col = Ok s /\
  ((nancount col < 2)%nat ->
     isna (Sample_Variance s) = true /\
     isna (Standard_Deviation s) = true /\
     isna (Standard_Error s) = true) /\
  ((nancount col < 3)%nat -> isna (Skewness s) = true) /\
  ((nancount col < 4)%nat -> isna (Kurtosis s) = true).
Proof.
  intro Hcol. rewrite (describe_ok col Hcol).
  eexists. split; [reflexivity|].
  cbn [Sample_Variance Standard_Deviation Standard_Error Skewness Kurtosis].
  assert (Hv : (nancount col < 2)%nat -> isna (nanvar col) = true).
  { intro H. unfold nanvar. cbv zeta.
    replace (Nat.leb (nancount col) 1) with true by (symmetry; apply Nat.leb_le; lia).
    reflexivity. }
  split; [|split].
  - intro H.
    assert (Hs : isna (nanstd col) = true) by (apply isna_sqrt, Hv, H).
    split; [now apply Hv|]. split; [exact Hs|]. now apply isna_div_l.
  - intro H. unfold nanskew. cbv zeta.
    replace (Nat.ltb (nancount col) 3) with true by (symmetry; apply Nat.ltb_lt; lia).
    reflexivity.
  - intro H. unfold nankurt. cbv zeta.
    replace (Nat.ltb (nancount col) 4) with true by (symmetry; apply Nat.ltb_lt; lia).
    reflexivity.
Qed.

(** ** The split, the results and the figure *)

Lemma group_names_distinct p :
  String.eqb (group_name_top p) (group_name_bottom p) = false.
Proof. reflexivity. Qed.

Lemma mapM_two {A B} (f : A -> Result B) a b :
  mapM f [a; b] = (x <- f a ;; y <- f b ;; Ok [x; y]).
Proof. simpl. destruct (f a); simpl; [destruct (f b)|]; reflexivity. Qed.

Lemma linspace_length start stop n :
  (1 <= n)%nat -> List.length (linspace start stop n) = n.
Proof.
  intro Hn. unfold linspace. cbv zeta.
  rewrite length_app, length_firstn, length_map, length_seq. simpl. lia.
Qed.

Section Report.

Variable sort_desc : (Row -> float) -> list Row -> list Row.
Hypothesis sort_perm : forall k l, Permutation (sort_desc k l) l.
Variable ttest_ind : list float -> list float -> float * float.
Variable gaussian_kde : list float -> Result (list float -> list float).

Lemma split_rows_inv d p u l :
  split_rows sort_desc d p = Ok (u, l) ->
  has_column d rank_column = true /\
  (exists c, py_int (float_of_nat (List.length (rows d)) * (p / 100))%float = Ok c) /\
  columns u = columns d /\ columns l = columns d /\
  rows u ++ rows l = sort_desc rank_of (rows d).
Proof.
  intro H. rewrite split_rows_eq in H.
  destruct (has_column d rank_column); [|discriminate]. cbv zeta in H.
  rewrite (sort_length sort_desc sort_perm) in H.
  destruct (py_int _) as [c|e] eqn:Hc; [|discriminate].
  injection H as <- <-. simpl.
  split; [reflexivity|]. split; [exists c; reflexivity|].
  split; [reflexivity|]. split; [reflexivity|]. apply firstn_skipn.
Qed.

(** X1: the split loses and duplicates no row: the two groups together are
    a rearrangement of the dataset's rows, and both keep its columns. *)
Theorem split_rows_partition d p upper lower :
  split_rows sort_desc d p = Ok (upper, lower) ->
  Permutation (rows upper ++ rows lower) (rows d) /\
  columns upper = columns d /\ columns lower = columns d.
Proof.
  intro H. destruct (split_rows_inv d p upper lower H) as (_ & _ & Hu & Hl & Hr).
  rewrite Hr. split; [apply sort_perm|]. now split.
Qed.

(** X2: the clamping saturates: two percentiles whose cutoffs are both at
    most 1 (a negative percentile included), or both at least [len - 1], give
    the same split. *)
Theorem split_rows_saturates d p q cp cq :
  has_column d rank_column = true ->
  py_int (float_of_nat (List.length (rows d)) * (p / 100))%float = Ok cp ->
  py_int (float_of_nat (List.length (rows d)) * (q / 100))%float = Ok cq ->
  ((cp <= 1 /\ cq <= 1) \/
   (Z.of_nat (List.length (rows d)) - 1 <= cp /\ Z.of_nat (List.length (rows d)) - 1 <= cq))%Z ->
  split_rows sort_desc d p = split_rows sort_desc d q.
Proof.
  intros Hcol Hp Hq Hsat.
  rewrite (split_rows_ok sort_desc sort_perm d p cp Hcol Hp),
          (split_rows_ok sort_desc sort_perm d q cq Hcol Hq).
  cbv zeta.
  assert (E : Z.max 1 (Z.min cp (Z.of_nat (List.length (rows d)) - 1))
            = Z.max 1 (Z.min cq (Z.of_nat (List.length (rows d)) - 1))) by lia.
  rewrite E. reflexivity.
Qed.

Lemma analyze_group_inv g r :
  analyze_group ttest_ind g = Ok r ->
  has_column g comparison_column = true /\ has_column g reference_column = true /\
  data r = g /\ rows g <> [].
Proof.
  unfold analyze_group, describe_year, get_column.
  destruct (has_column g comparison_column), (has_column g reference_column);
    cbn [bind]; try discriminate.
  destruct (rows g) as [|x t] eqn:Er.
  - cbn. discriminate.
  - rewrite !describe_ok by (cbn; discriminate). cbn [bind].
    intro H. injection H as <-. split; [reflexivity|]. split; [reflexivity|].
    split; [reflexivity|discriminate].
Qed.

Lemma analyze_split_inv d p u l :
  analyze_split sort_desc ttest_ind d p = Ok (u, l) ->
  split_rows sort_desc d p = Ok (data u, data l) /\
  analyze_group ttest_ind (data u) = Ok u /\ analyze_group ttest_ind (data l) = Ok l.
Proof.
  unfold analyze_split.
  destruct (split_rows sort_desc d p) as [[gu gl]|e]; cbn [bind fst snd]; [|discriminate].
  destruct (analyze_group ttest_ind gu) as [ru|e] eqn:Hu; cbn [bind]; [|discriminate].
  destruct (analyze_group ttest_ind gl) as [rl|e] eqn:Hl; cbn [bind]; [|discriminate].
  intro H. injection H as <- <-.
  destruct (analyze_group_inv _ _ Hu) as (_ & _ & Du & _).
  destruct (analyze_group_inv _ _ Hl) as (_ & _ & Dl & _).
  rewrite Du, Dl. now split.
Qed.

(** X3: [analyze_split] returns its two results exactly when the dataset
    has the three columns it reads, at least two rows, and
    [int(len * (percentile / 100))] succeeds; otherwise it raises
    [KeyError], the error of [int()], or [ZeroDivisionError] at an empty
    group. *)
Theorem analyze_split_ok_iff d p :
  (exists upper lower, analyze_split sort_desc ttest_ind d p = Ok (upper, lower)) <->
  (forall m, In m required_columns -> has_column d m = true) /\
  (2 <= List.length (rows d))%nat /\
  exists c, py_int (float_of_nat (List.length (rows d)) * (p / 100))%float = Ok c.
Proof.
  split.
  - intros (u & l & H).
    destruct (analyze_split_inv d p u l H) as (Hs & Hu & Hl).
    destruct (split_rows_inv d p _ _ Hs) as (Hr & Hc & Cu & _ & Hrows).
    destruct (analyze_group_inv _ _ Hu) as (H1 & H2 & _ & Nu).
    destruct (analyze_group_inv _ _ Hl) as (_ & _ & _ & Nl).
    split; [|split; [|exact Hc]].
    + unfold has_column in H1, H2. rewrite Cu in H1, H2.
      intros m [<-|[<-|[<-|[]]]]; assumption.
    + rewrite <- (sort_length sort_desc sort_perm rank_of), <- Hrows, length_app.
      destruct (rows (data u)); [congruence|]. destruct (rows (data l)); [congruence|].
      simpl. lia.
  - intros (Hm & Hn & c & Hc).
    assert (Hr : has_column d rank_column = true) by (apply Hm; now left).
    assert (H1 : has_column d reference_column = true) by (apply Hm; right; now left).
    assert (H2 : has_column d comparison_column = true) by (apply Hm; right; right; now left).
    unfold analyze_split. rewrite (split_rows_ok sort_desc sort_perm d p c Hr Hc).
    cbn [bind fst snd]. cbv zeta.
    set (s := sort_desc rank_of (rows d)).
    set (k := Z.to_nat (Z.max 1 (Z.min c (Z.of_nat (List.length (rows d)) - 1)))).
    assert (Hs : List.length s = List.length (rows d)) by apply sort_length, sort_perm.
    assert (Hk : (1 <= k <= List.length (rows d) - 1)%nat) by (subst k; lia).
    destruct (analyze_group_ok ttest_ind (mkFrame (columns d) (firstn k s)) H2 H1)
      as (ru & Eu & _).
    { cbn [rows]. intro E. apply (f_equal (@List.length _)) in E.
      rewrite length_firstn in E. simpl in E. lia. }
    destruct (analyze_group_ok ttest_ind (mkFrame (columns d) (skipn k s)) H2 H1)
      as (rl & El & _).
    { cbn [rows]. intro E. apply (f_equal (@List.length _)) in E.
      rewrite length_skipn in E. simpl in E. lia. }
    rewrite Eu, El. cbn [bind]. eexists; eexists; reflexivity.
Qed.

Lemma analyze_split_dict_inv d p results :
  analyze_split_dict sort_desc ttest_ind d p = Ok results ->
  exists upper lower,
    analyze_split sort_desc ttest_ind d (float_of_Z p) = Ok (upper, lower) /\
    results = [(group_name_top p, upper); (group_name_bottom p, lower)].
Proof.
  unfold analyze_split_dict.
  destruct (analyze_split sort_desc ttest_ind d (float_of_Z p)) as [[u l]|e];
    cbn [bind fst snd]; [|discriminate].
  intro H. injection H as <-. exists u, l. split; [reflexivity|].
  reflexivity.
Qed.

(** X8: the results dictionary has two distinct keys, [Top p%] for the
    upper group's result and [Bottom (100-p)%] for the lower group's, in
    that order: [update_analysis] shows the upper group as the top group. *)
Theorem analyze_split_dict_keys d p results :
  analyze_split_dict sort_desc ttest_ind d p = Ok results ->
  exists upper lower,
    analyze_split sort_desc ttest_ind d (float_of_Z p) = Ok (upper, lower) /\
    List.length results = 2%nat /\
    update_analysis_groups results = Some (group_name_top p, group_name_bottom p) /\
    dict_get results (group_name_top p) = Some upper /\
    dict_get results (group_name_bottom p) = Some lower.
Proof.
  intro H. destruct (analyze_split_dict_inv d p results H) as (u & l & Ha & ->).
  exists u, l. split; [exact Ha|]. split; [reflexivity|].
  split; [reflexivity|].
  cbn [dict_get]. rewrite !String.eqb_refl, group_names_distinct.
  split; reflexivity.
Qed.

Lemma kde_trace_spec row g y ts :
  has_column g y = true ->
  kde_trace gaussian_kde row g y = Ok ts ->
  Forall (fun t => tkind t = KDE /\ trow t = row /\ tcol t = 2%nat /\
                   List.length (tvalues t) = 1000%nat) ts /\
  map tname ts = (if Nat.ltb 0 (nancount (map (fun r => row_get r y) (rows g)))
                  then [y] else []).
Proof.
  intros H. unfold kde_trace, get_column. rewrite H. cbn [bind].
  unfold nancount.
  destruct (dropna (map (fun r => row_get r y) (rows g))) as [|x t]; cbv beta iota zeta.
  - intro E. injection E as <-. split; [constructor|reflexivity].
  - destruct (gaussian_kde (x :: t)) as [f|e]; cbn [bind]; [|discriminate].
    intro E. injection E as <-. split; [|reflexivity].
    constructor; [|constructor]. cbn [tkind trow tcol tvalues].
    split; [reflexivity|]. split; [reflexivity|]. split; [reflexivity|].
    apply linspace_length. lia.
Qed.

Lemma kde_trace_ok_iff row g y :
  has_column g y = true ->
  (exists ts, kde_trace gaussian_kde row g y = Ok ts) <->
  (dropna (map (fun r => row_get r y) (rows g)) <> [] ->
   exists f, gaussian_kde (dropna (map (fun r => row_get r y) (rows g))) = Ok f).
Proof.
  intros H. unfold kde_trace, get_column. rewrite H. cbn [bind].
  destruct (dropna (map (fun r => row_get r y) (rows g))) as [|x t]; cbv beta iota zeta.
  - split; [intros _ C; congruence|intros _; eexists; reflexivity].
  - destruct (gaussian_kde (x :: t)) as [f|e]; cbn [bind].
    + split; intros _; [intros _|]; eexists; reflexivity.
    + split; [intros [ts E]; discriminate|].
      intro Hf. destruct (Hf ltac:(discriminate)) as [f E]. discriminate.
Qed.

Lemma group_traces_eq row g :
  has_column g reference_column = true -> has_column g comparison_column = true ->
  group_traces gaussian_kde row g =
    (k1 <- kde_trace gaussian_kde row g reference_column ;;
     k2 <- kde_trace gaussian_kde row g comparison_column ;;
     Ok (row_layout row g (k1 ++ k2))).
Proof.
  intros H1 H2. unfold group_traces, years. rewrite !mapM_two.
  unfold box_trace, hist_trace, get_column. rewrite H1, H2. cbn [bind].
  destruct (kde_trace gaussian_kde row g reference_column) as [k1|e]; cbn [bind]; [|reflexivity].
  destruct (kde_trace gaussian_kde row g comparison_column) as [k2|e]; cbn [bind]; [|reflexivity].
  unfold row_layout, years. cbn [map List.concat]. rewrite app_nil_r. reflexivity.
Qed.

Lemma kde_pair_spec row g k1 k2 :
  has_column g reference_column = true -> has_column g comparison_column = true ->
  kde_trace gaussian_kde row g reference_column = Ok k1 ->
  kde_trace gaussian_kde row g comparison_column = Ok k2 ->
  Forall (fun t => tkind t = KDE /\ trow t = row /\ tcol t = 2%nat /\
                   List.length (tvalues t) = 1000%nat) (k1 ++ k2) /\
  map tname (k1 ++ k2) =
    filter (fun y => Nat.ltb 0 (nancount (map (fun r => row_get r y) (rows g)))) years.
Proof.
  intros H1 H2 K1 K2.
  destruct (kde_trace_spec row g _ k1 H1 K1) as [F1 N1].
  destruct (kde_trace_spec row g _ k2 H2 K2) as [F2 N2].
  split; [now apply Forall_app|].
  rewrite map_app, N1, N2. unfold years. cbn [filter].
  destruct (Nat.ltb 0 _), (Nat.ltb 0 _); reflexivity.
Qed.

Lemma group_traces_ok_iff row g :
  has_column g reference_column = true -> has_column g comparison_column = true ->
  (exists ts, group_traces gaussian_kde row g = Ok ts) <->
  forall y, In y years ->
    dropna (map (fun r => row_get r y) (rows g)) <> [] ->
    exists f, gaussian_kde (dropna (map (fun r => row_get r y) (rows g))) = Ok f.
Proof.
  intros H1 H2. rewrite group_traces_eq by assumption.
  pose proof (kde_trace_ok_iff row g _ H1) as K1.
  pose proof (kde_trace_ok_iff row g _ H2) as K2.
  destruct (kde_trace gaussian_kde row g reference_column) as [k1|e1]; cbn [bind].
  - destruct (kde_trace gaussian_kde row g comparison_column) as [k2|e2]; cbn [bind].
    + split; [|intros _; eexists; reflexivity].
      intros _ y [<-|[<-|[]]]; [apply K1|apply K2]; eexists; reflexivity.
    + split; [intros [ts E]; discriminate|].
      intro Hall. destruct (proj2 K2 (Hall _ (or_intror (or_introl eq_refl)))) as [ts E].
      discriminate.
  - split; [intros [ts E]; discriminate|].
    intro Hall. destruct (proj2 K1 (Hall _ (or_introl eq_refl))) as [ts E].
    discriminate.
Qed.

(** [create_plots] returns exactly when [analyze_split] does and
    [gaussian_kde] accepts the non-missing values of every group and year
    that has one. *)
Lemma create_plots_ok_spec d p :
  (exists traces results,
     create_plots sort_desc ttest_ind gaussian_kde d p = Ok (traces, results)) <->
  exists results, analyze_split_dict sort_desc ttest_ind d p = Ok results /\
    forall name r y, In (name, r) results -> In y years ->
      dropna (map (fun x => row_get x y) (rows (data r))) <> [] ->
      exists f, gaussian_kde (dropna (map (fun x => row_get x y) (rows (data r)))) = Ok f.
Proof.
  unfold create_plots.
  destruct (analyze_split_dict sort_desc ttest_ind d p) as [res|e] eqn:Hd; cbn [bind].
  2:{ split; [intros (ts & rs & E); discriminate|intros (rs & E & _); discriminate]. }
  destruct (analyze_split_dict_inv d p res Hd) as (u & l & Ha & ->).
  destruct (analyze_split_inv d (float_of_Z p) u l Ha) as (_ & Hu & Hl).
  destruct (analyze_group_inv _ _ Hu) as (Hu2 & Hu1 & _).
  destruct (analyze_group_inv _ _ Hl) as (Hl2 & Hl1 & _).
  pose proof (group_traces_ok_iff 1 (data u) Hu1 Hu2) as G1.
  pose proof (group_traces_ok_iff 2 (data l) Hl1 Hl2) as G2.
  cbn [enumerate_traces].
  destruct (group_traces gaussian_kde 1 (data u)) as [t1|e1]; cbn [bind].
  - destruct (group_traces gaussian_kde 2 (data l)) as [t2|e2]; cbn [bind].
    + split; [|intros _; do 2 eexists; reflexivity].
      intros _. eexists; split; [reflexivity|].
      intros name r y [E|[E|[]]]; injection E as _ <-.
      * apply (proj1 G1 (ex_intro _ t1 eq_refl)).
      * apply (proj1 G2 (ex_intro _ t2 eq_refl)).
    + split; [intros (ts & rs & E); discriminate|].
      intros (rs & E & Hall). injection E as <-.
      destruct (proj2 G2 (fun y => Hall _ l y (or_intror (or_introl eq_refl)))) as [ts E].
      discriminate.
  - split; [intros (ts & rs & E); discriminate|].
    intros (rs & E & Hall). injection E as <-.
    destruct (proj2 G1 (fun y => Hall _ u y (or_introl eq_refl))) as [ts E].
    discriminate.
Qed.

(** X4: when a group of the split has exactly one non-missing value in
    2019_HE or in 2021_HE, [create_plots] raises, provided [gaussian_kde]
    rejects a one-element dataset (scipy raises [ValueError] there). *)
Theorem create_plots_single_value d p results name r y :
  (forall x, exists e, gaussian_kde [x] = Err e) ->
  analyze_split_dict sort_desc ttest_ind d p = Ok results ->
  In (name, r) results -> In y years ->
  nancount (map (fun x => row_get x y) (rows (data r))) = 1%nat ->
  exists e, create_plots sort_desc ttest_ind gaussian_kde d p = Err e.
Proof.
  intros Hk Hd Hin Hy Hn.
  destruct (create_plots sort_desc ttest_ind gaussian_kde d p) as [[ts rs]|e] eqn:Hc;
    [|now exists e].
  exfalso.
  destruct (proj1 (create_plots_ok_spec d p) (ex_intro _ ts (ex_intro _ rs Hc)))
    as (rs' & Hd' & Hall).
  rewrite Hd in Hd'. injection Hd' as <-.
  unfold nancount in Hn.
  destruct (dropna (map (fun x => row_get x y) (rows (data r)))) as [|x [|x' t]] eqn:Ed;
    try discriminate.
  assert (Hne : dropna (map (fun x => row_get x y) (rows (data r))) <> [])
    by (rewrite Ed; discriminate).
  destruct (Hall name r y Hin Hy Hne) as [f Ef].
  rewrite Ed in Ef. destruct (Hk x) as [e Ee]. congruence.
Qed.

End Report.

(** ** Runs of the rest of the report *)

Lemma split_rows_partition_witness :
  split_rows isort_desc (frame_of_ranks [3; 1; 2]%float) 50%float
    = Ok (frame_of_ranks [3%float], frame_of_ranks [2; 1]%float) /\
  Permutation (rows (frame_of_ranks [3%float]) ++ rows (frame_of_ranks [2; 1]%float))
              (rows (frame_of_ranks [3; 1; 2]%float)) /\
  columns (frame_of_ranks [3%float]) = columns (frame_of_ranks [3; 1; 2]%float) /\
  columns (frame_of_ranks [2; 1]%float) = columns (frame_of_ranks [3; 1; 2]%float).
Proof.
  assert (H : split_rows isort_desc (frame_of_ranks [3; 1; 2]%float) 50%float
                = Ok (frame_of_ranks [3%float], frame_of_ranks [2; 1]%float))
    by (vm_compute; reflexivity).
  split; [exact H|].
  exact (split_rows_partition isort_desc isort_desc_perm _ _ _ _ H).
Defined.

(** A negative percentile splits like percentile 0, and 150 like 100. *)
Lemma split_rows_saturates_witness :
  has_column (frame_of_size 10) rank_column = true /\
  py_int (float_of_nat (List.length (rows (frame_of_size 10))) * ((-50) / 100))%float = Ok (-5)%Z /\
  py_int (float_of_nat (List.length (rows (frame_of_size 10))) * (0 / 100))%float = Ok 0%Z /\
  py_int (float_of_nat (List.length (rows (frame_of_size 10))) * (150 / 100))%float = Ok 15%Z /\
  py_int (float_of_nat (List.length (rows (frame_of_size 10))) * (100 / 100))%float = Ok 10%Z /\
  split_rows isort_desc (frame_of_size 10) (-50)%float = split_rows isort_desc (frame_of_size 10) 0%float /\
  split_rows isort_desc (frame_of_size 10) 150%float = split_rows isort_desc (frame_of_size 10) 100%float /\
  split_sizes (split_rows isort_desc (frame_of_size 10) (-50)%float) = Some (1%nat, 9%nat).
Proof.
  assert (H : has_column (frame_of_size 10) rank_column = true) by reflexivity.
  assert (H1 : py_int (float_of_nat (List.length (rows (frame_of_size 10))) * ((-50) / 100))%float
               = Ok (-5)%Z) by (vm_compute; reflexivity).
  assert (H2 : py_int (float_of_nat (List.length (rows (frame_of_size 10))) * (0 / 100))%float
               = Ok 0%Z) by (vm_compute; reflexivity).
  assert (H3 : py_int (float_of_nat (List.length (rows (frame_of_size 10))) * (150 / 100))%float
               = Ok 15%Z) by (vm_compute; reflexivity).
  assert (H4 : py_int (float_of_nat (List.length (rows (frame_of_size 10))) * (100 / 100))%float
               = Ok 10%Z) by (vm_compute; reflexivity).
  split; [exact H|]. split; [exact H1|]. split; [exact H2|]. split; [exact H3|].
  split; [exact H4|]. split.
  { apply (split_rows_saturates isort_desc isort_desc_perm _ _ _ _ _ H H1 H2). left; lia. }
  split.
  { apply (split_rows_saturates isort_desc isort_desc_perm _ _ _ _ _ H H3 H4).
    right; vm_compute; split; discriminate. }
  vm_compute. reflexivity.
Defined.

Lemma analyze_split_ok_iff_witness :
  (forall m, In m required_columns -> has_column (frame_of_size 4) m = true) /\
  (2 <= List.length (rows (frame_of_size 4)))%nat /\
  py_int (float_of_nat (List.length (rows (frame_of_size 4))) * (50 / 100))%float = Ok 2%Z /\
  exists upper lower,
    analyze_split isort_desc ttest_nan (frame_of_size 4) 50%float = Ok (upper, lower).
Proof.
  assert (Hm : forall m, In m required_columns -> has_column (frame_of_size 4) m = true)
    by (intros m [<-|[<-|[<-|[]]]]; reflexivity).
  assert (Hn : (2 <= List.length (rows (frame_of_size 4)))%nat) by (simpl; lia).
  assert (Hc : py_int (float_of_nat (List.length (rows (frame_of_size 4))) * (50 / 100))%float
               = Ok 2%Z) by (vm_compute; reflexivity).
  split; [exact Hm|]. split; [exact Hn|]. split; [exact Hc|].
  apply (analyze_split_ok_iff isort_desc isort_desc_perm ttest_nan (frame_of_size 4) 50%float).
  split; [exact Hm|]. split; [exact Hn|]. exists 2%Z. exact Hc.
Defined.

Lemma describe_min_max_witness :
  dropna [3; nan; 1; 2]%float <> [] /\
  exists s, describe [3; nan; 1; 2]%float = Ok s /\
    Minimum s = 1%float /\ Maximum s = 3%float /\
    In (Minimum s) (dropna [3; nan; 1; 2]%float) /\
    In (Maximum s) (dropna [3; nan; 1; 2]%float).
Proof.
  assert (H : dropna [3; nan; 1; 2]%float <> []) by (intro E; vm_compute in E; discriminate E).
  split; [exact H|].
  destruct (describe_min_max _ H) as (s & Es & H1 & H2 & _).
  exists s. split; [exact Es|].
  pose proof Es as E'. vm_compute in E'. injection E' as <-.
  split; [reflexivity|]. split; [reflexivity|]. now split.
Defined.

Lemma describe_median_odd_witness :
  Nat.odd (nancount [3; nan; 1; 2]%float) = true /\
  exists s, describe [3; nan; 1; 2]%float = Ok s /\
    Median s = 2%float /\
    In (Median s) (dropna [3; nan; 1; 2]%float) /\
    py_ge (Median s) (Minimum s) = true /\ py_ge (Maximum s) (Median s) = true.
Proof.
  assert (H : Nat.odd (nancount [3; nan; 1; 2]%float) = true) by (vm_compute; reflexivity).
  split; [exact H|].
  destruct (describe_median_odd _ H) as (s & Es & H1 & H2 & H3).
  exists s. split; [exact Es|].
  pose proof Es as E'. vm_compute in E'. injection E' as <-.
  split; [reflexivity|]. now split.
Defined.

Lemma describe_few_values_witness :
  [1; nan]%float <> [] /\ (nancount [1; nan]%float < 2)%nat /\
  exists s, describe [1; nan]%float = Ok s /\
    isna (Sample_Variance s) = true /\ isna (Standard_Deviation s) = true /\
    isna (Standard_Error s) = true /\ isna (Skewness s) = true /\ isna (Kurtosis s) = true.
Proof.
  assert (Hc : [1; nan]%float <> []) by discriminate.
  assert (H : (nancount [1; nan]%float < 2)%nat) by (vm_compute; lia).
  split; [exact Hc|]. split; [exact H|].
  destruct (describe_few_values _ Hc) as (s & Es & H2 & H3 & H4).
  exists s. split; [exact Es|].
  destruct (H2 H) as (Hv & Hs & He).
  split; [exact Hv|]. split; [exact Hs|]. split; [exact He|].
  split; [apply H3; lia|apply H4; lia].
Defined.

Lemma analyze_split_dict_keys_witness :
  exists results,
    analyze_split_dict isort_desc ttest_nan (frame_of_size 4) 50 = Ok results /\
    update_analysis_groups results = Some ("Top 50%"%string, "Bottom 50%"%string) /\
    exists upper lower,
      analyze_split isort_desc ttest_nan (frame_of_size 4) (float_of_Z 50) = Ok (upper, lower) /\
      dict_get results "Top 50%" = Some upper /\ dict_get results "Bottom 50%" = Some lower.
Proof.
  assert (Hok : exists results,
             analyze_split_dict isort_desc ttest_nan (frame_of_size 4) 50 = Ok results)
    by (vm_compute; eauto).
  destruct Hok as (res & E). exists res. split; [exact E|].
  destruct (analyze_split_dict_keys isort_desc ttest_nan _ _ _ E)
    as (u & l & Ha & _ & Hg & Hu & Hl).
  split; [exact Hg|]. exists u, l. split; [exact Ha|]. now split.
Defined.

(** With three rows at percentile 10 the upper group has one row, so one
    2019_HE value, and its density raises. *)
Lemma create_plots_single_value_witness :
  exists results name r,
    analyze_split_dict isort_desc ttest_nan (frame_of_ranks [3; 2; 1]%float) 10 = Ok results /\
    In (name, r) results /\
    nancount (map (fun x => row_get x reference_column) (rows (data r))) = 1%nat /\
    exists e, create_plots isort_desc ttest_nan kde_needs_two (frame_of_ranks [3; 2; 1]%float) 10
              = Err e.
Proof.
  assert (Hk : forall x, exists e, kde_needs_two [x] = Err e) by (intro; eexists; reflexivity).
  destruct (analyze_split_dict isort_desc ttest_nan (frame_of_ranks [3; 2; 1]%float) 10)
    as [res|e] eqn:E.
  2:{ vm_compute in E. discriminate E. }
  assert (Hin : exists name r, In (name, r) res /\
            nancount (map (fun x => row_get x reference_column) (rows (data r))) = 1%nat).
  { pose proof E as E'. vm_compute in E'. injection E' as <-.
    eexists; eexists; split; [left; reflexivity|vm_compute; reflexivity]. }
  destruct Hin as (name & r & Hin & Hn).
  exists res, name, r. split; [reflexivity|]. split; [exact Hin|]. split; [exact Hn|].
  exact (create_plots_single_value isort_desc ttest_nan kde_needs_two _ _ res name r
           reference_column Hk E Hin (or_introl eq_refl) Hn).
Defined.
